(** * Native tools manager: tool-configuration resolution

    A shallow embedding of [src/helpers/native-tools-manager.ts]
    (class [NativeToolsManager]) and the properties of its decision
    logic.

    Conventions of the embedding:
    - a JavaScript value of type [T | undefined] is an [option T];
      the tri-state request flags ([boolean | undefined]) are
      [option bool], and [x === true] / [x === false] are the tests
      [is_true] / [is_false] below;
    - strings are [string] (a sequence of bytes, UTF-8).  The only
      string operations of the module are [===] against ASCII literals,
      truthiness (non-empty) and [includes] with an ASCII needle; for
      these the byte view and JavaScript's UTF-16 view agree;
    - arrays are lists; [customTools: undefined] is [None];
    - the class instance is a record holding [envSettings]; methods take
      it as first argument [this].  The citations processor is an opaque
      collaborator and is not part of the model;
    - the record types are declared in [../types], outside this file;
      their fields are the ones the class reads and the ones its object
      literals write.  Fields keep their names, except where two records
      share one: the request's fields carry the prefix [rp_], and the
      configuration's [priority] is [cfg_priority]. *)

From Stdlib Require Import Bool List String Ascii.
Import ListNotations.
Open Scope string_scope.
Open Scope bool_scope.

(** ** JavaScript primitives used by the module *)

(** [x === true] on a value of type [boolean | undefined]. *)
Definition is_true (x : option bool) : bool :=
  match x with
  | Some true => true
  | _ => false
  end.

(** [x === false] on a value of type [boolean | undefined]. *)
Definition is_false (x : option bool) : bool :=
  match x with
  | Some false => true
  | _ => false
  end.

(** [x === lit] on a value of type [string | undefined]. *)
Definition str_is (x : option string) (lit : string) : bool :=
  match x with
  | Some s => String.eqb s lit
  | None => false
  end.

(** [x !== lit] on a value of type [string | undefined]. *)
Definition str_is_not (x : option string) (lit : string) : bool :=
  negb (str_is x lit).

(** [x || d] on [x : string | undefined]: [x] when truthy (defined and
    non-empty), else [d]. *)
Definition or_default (x : option string) (d : string) : string :=
  match x with
  | Some (String c s) => String c s
  | Some EmptyString => d
  | None => d
  end.

(** [s.startsWith(p)]: the test [String.prototype.includes] performs at
    each candidate position. *)
Fixpoint starts_with (p s : string) : bool :=
  match p with
  | EmptyString => true
  | String a p' =>
      match s with
      | EmptyString => false
      | String b s' => Ascii.eqb a b && starts_with p' s'
      end
  end.

(** [s.includes(needle)]: some position of [s] starts an occurrence of
    [needle]. *)
Fixpoint includes (s needle : string) : bool :=
  starts_with needle s ||
  match s with
  | EmptyString => false
  | String _ s' => includes s' needle
  end.

(** [a.push(x)], as the array after the call. *)
Definition push {A : Type} (a : list A) (x : A) : list A :=
  (a ++ [x])%list.

(** ** Data model *)

(** The part of [Env] read by [parseEnvironmentSettings]: nine optional
    string variables. *)
Record Env : Type := {
  ENABLE_GEMINI_NATIVE_TOOLS : option string;
  ENABLE_GOOGLE_SEARCH : option string;
  ENABLE_URL_CONTEXT : option string;
  GEMINI_TOOLS_PRIORITY : option string;
  DEFAULT_TO_NATIVE_TOOLS : option string;
  ALLOW_REQUEST_TOOL_CONTROL : option string;
  ENABLE_INLINE_CITATIONS : option string;
  INCLUDE_GROUNDING_METADATA : option string;
  INCLUDE_SEARCH_ENTRY_POINT : option string
}.

(** [NativeToolsEnvSettings].  [priority] is declared as the union
    ["native_first" | "custom_first"], but the parser fills it by an
    unchecked cast of the environment string, so at run time it is an
    arbitrary string. *)
Record NativeToolsEnvSettings : Type := {
  enableNativeTools : bool;
  enableGoogleSearch : bool;
  enableUrlContext : bool;
  priority : string;
  defaultToNativeTools : bool;
  allowRequestControl : bool;
  enableInlineCitations : bool;
  includeGroundingMetadata : bool;
  includeSearchEntryPoint : bool
}.

(** [NativeToolsRequestParams]: the four fields the manager reads, all
    optional. *)
Record NativeToolsRequestParams : Type := {
  rp_enableNativeTools : option bool;
  rp_enableSearch : option bool;
  rp_enableUrlContext : option bool;
  rp_nativeToolsPriority : option string
}.

(** [NativeTool]: one of the object literals [{ google_search: {} }] and
    [{ url_context: {} }]. *)
Inductive NativeTool : Type :=
| google_search
| url_context.

(** Modelled from the spec: the constant
    [NATIVE_TOOLS_DEFAULTS.GEMINI_TOOLS_PRIORITY] lives in [../constants],
    which is not among the sources; the interface section of the
    specification gives the default of [TOOLS_PRIORITY] as
    [native_first]. *)
Definition NATIVE_TOOLS_DEFAULTS_GEMINI_TOOLS_PRIORITY : string :=
  "native_first".

Section Manager.

(** [Tool] is the caller's function-tool descriptor; the manager never
    inspects it. *)
Variable Tool : Type.

(** [NativeToolsConfiguration], as built by the two object literals of
    the class. *)
Record NativeToolsConfiguration : Type := {
  useNativeTools : bool;
  useCustomTools : bool;
  nativeTools : list NativeTool;
  customTools : option (list Tool);
  cfg_priority : string;
  toolType : string
}.

(** The instance state: [envSettings] (the citations processor is left
    out). *)
Record NativeToolsManager : Type := {
  envSettings : NativeToolsEnvSettings
}.

(** ** Methods *)

Definition parseEnvironmentSettings (env : Env) : NativeToolsEnvSettings :=
  {| enableNativeTools := str_is (ENABLE_GEMINI_NATIVE_TOOLS env) "true";
     enableGoogleSearch := str_is (ENABLE_GOOGLE_SEARCH env) "true";
     enableUrlContext := str_is (ENABLE_URL_CONTEXT env) "true";
     priority :=
       or_default (GEMINI_TOOLS_PRIORITY env)
                  NATIVE_TOOLS_DEFAULTS_GEMINI_TOOLS_PRIORITY;
     defaultToNativeTools := str_is_not (DEFAULT_TO_NATIVE_TOOLS env) "false";
     allowRequestControl := str_is_not (ALLOW_REQUEST_TOOL_CONTROL env) "false";
     enableInlineCitations := str_is (ENABLE_INLINE_CITATIONS env) "true";
     includeGroundingMetadata :=
       str_is_not (INCLUDE_GROUNDING_METADATA env) "false";
     includeSearchEntryPoint := str_is (INCLUDE_SEARCH_ENTRY_POINT env) "true"
  |}.

Definition constructor (env : Env) : NativeToolsManager :=
  {| envSettings := parseEnvironmentSettings env |}.

Definition isLegacyModel (modelId : string) : bool :=
  includes modelId "gemini-1.5".

Definition shouldEnableGoogleSearch
  (this : NativeToolsManager) (params : NativeToolsRequestParams) : bool :=
  if is_false (rp_enableSearch params) then false
  else if is_true (rp_enableSearch params) then true
  else enableGoogleSearch (envSettings this).

Definition shouldEnableUrlContext
  (this : NativeToolsManager) (params : NativeToolsRequestParams) : bool :=
  if is_false (rp_enableUrlContext params) then false
  else if is_true (rp_enableUrlContext params) then true
  else enableUrlContext (envSettings this).

(** The local array [tools] is threaded through the two conditional
    pushes. *)
Definition createNativeToolsArray
  (this : NativeToolsManager) (params : NativeToolsRequestParams)
  (modelId : string) : list NativeTool :=
  let tools : list NativeTool := [] in
  let tools :=
    if shouldEnableGoogleSearch this params then
      if negb (isLegacyModel modelId) then push tools google_search
      else tools
    else tools in
  let tools :=
    if shouldEnableUrlContext this params
       && negb (shouldEnableGoogleSearch this params)
    then push tools url_context
    else tools in
  tools.

Definition createCustomOnlyConfig (customTools0 : list Tool)
  : NativeToolsConfiguration :=
  {| useNativeTools := false;
     useCustomTools := true;
     nativeTools := [];
     customTools := Some customTools0;
     cfg_priority := "custom";
     toolType := "custom_only" |}.

(** [customTools.length > 0] *)
Definition nonempty (customTools0 : list Tool) : bool :=
  Nat.ltb 0 (List.length customTools0).

Definition createSearchAndUrlConfig
  (this : NativeToolsManager) (requestParams : NativeToolsRequestParams)
  (customTools0 : list Tool) (modelId : string) : NativeToolsConfiguration :=
  let nativeTools0 := createNativeToolsArray this requestParams modelId in
  if String.eqb (priority (envSettings this)) "native_first"
     || str_is (rp_nativeToolsPriority requestParams) "native"
  then
    {| useNativeTools := true;
       useCustomTools := false;
       nativeTools := nativeTools0;
       customTools := None;
       cfg_priority := "native";
       toolType := "search_and_url" |}
  else if (String.eqb (priority (envSettings this)) "custom_first"
           || str_is (rp_nativeToolsPriority requestParams) "custom")
          && nonempty customTools0
  then createCustomOnlyConfig customTools0
  else
    {| useNativeTools := true;
       useCustomTools := false;
       nativeTools := nativeTools0;
       customTools := None;
       cfg_priority := "native";
       toolType := "search_and_url" |}.

(** The three local constants of [determineToolConfiguration] that
    decide whether the tie-break is entered. *)
Definition nativeRequestedExplicitly
  (this : NativeToolsManager) (requestParams : NativeToolsRequestParams)
  : bool :=
  allowRequestControl (envSettings this)
  && (is_true (rp_enableNativeTools requestParams)
      || is_true (rp_enableSearch requestParams)
      || is_true (rp_enableUrlContext requestParams)).

Definition shouldDefaultToNative
  (this : NativeToolsManager) (customTools0 : list Tool) : bool :=
  defaultToNativeTools (envSettings this) && negb (nonempty customTools0).

Definition shouldConsiderNative
  (this : NativeToolsManager) (customTools0 : list Tool)
  (requestParams : NativeToolsRequestParams) : bool :=
  let nativeToolsAvailable :=
    enableGoogleSearch (envSettings this)
    || enableUrlContext (envSettings this) in
  nativeToolsAvailable
  && (nativeRequestedExplicitly this requestParams
      || shouldDefaultToNative this customTools0).

Definition determineToolConfiguration
  (this : NativeToolsManager) (customTools0 : list Tool)
  (requestParams : NativeToolsRequestParams) (modelId : string)
  : NativeToolsConfiguration :=
  if negb (enableNativeTools (envSettings this)) then
    createCustomOnlyConfig customTools0
  else if allowRequestControl (envSettings this)
          && is_false (rp_enableNativeTools requestParams) then
    createCustomOnlyConfig customTools0
  else if shouldConsiderNative this customTools0 requestParams then
    createSearchAndUrlConfig this requestParams customTools0 modelId
  else
    createCustomOnlyConfig customTools0.

(** The object literal returned by the first and by the last branch of
    [createSearchAndUrlConfig] (the two copies are identical), as a
    function of the native tools array it carries. *)
Definition nativeConfig (nativeTools0 : list NativeTool)
  : NativeToolsConfiguration :=
  {| useNativeTools := true;
     useCustomTools := false;
     nativeTools := nativeTools0;
     customTools := None;
     cfg_priority := "native";
     toolType := "search_and_url" |}.

(** The guards of [determineToolConfiguration] under which control
    reaches the call of [createSearchAndUrlConfig] (the tie-break). *)
Definition reachesTieBreak
  (this : NativeToolsManager) (customTools0 : list Tool)
  (requestParams : NativeToolsRequestParams) : bool :=
  enableNativeTools (envSettings this)
  && negb (allowRequestControl (envSettings this)
           && is_false (rp_enableNativeTools requestParams))
  && shouldConsiderNative this customTools0 requestParams.

End Manager.

Arguments useNativeTools {Tool} _.
Arguments useCustomTools {Tool} _.
Arguments nativeTools {Tool} _.
Arguments customTools {Tool} _.
Arguments cfg_priority {Tool} _.
Arguments toolType {Tool} _.
Arguments createCustomOnlyConfig {Tool} _.
Arguments nonempty {Tool} _.
Arguments createSearchAndUrlConfig {Tool} _ _ _ _.
Arguments shouldDefaultToNative {Tool} _ _.
Arguments shouldConsiderNative {Tool} _ _ _.
Arguments determineToolConfiguration {Tool} _ _ _ _.
Arguments nativeConfig {Tool} _.
Arguments reachesTieBreak {Tool} _ _ _.

(** [this] with [allowRequestControl] replaced by [b]. *)
Definition with_allowRequestControl (this : NativeToolsManager) (b : bool)
  : NativeToolsManager :=
  let e := envSettings this in
  {| envSettings :=
       {| enableNativeTools := enableNativeTools e;
          enableGoogleSearch := enableGoogleSearch e;
          enableUrlContext := enableUrlContext e;
          priority := priority e;
          defaultToNativeTools := defaultToNativeTools e;
          allowRequestControl := b;
          enableInlineCitations := enableInlineCitations e;
          includeGroundingMetadata := includeGroundingMetadata e;
          includeSearchEntryPoint := includeSearchEntryPoint e |} |}.

(** ** Sample data for the concrete instances *)

(** The environment of the examples: every variable unset except the
    tools priority. *)
Definition env_with_priority (p : option string) : Env :=
  {| ENABLE_GEMINI_NATIVE_TOOLS := Some "true";
     ENABLE_GOOGLE_SEARCH := Some "true";
     ENABLE_URL_CONTEXT := Some "true";
     GEMINI_TOOLS_PRIORITY := p;
     DEFAULT_TO_NATIVE_TOOLS := None;
     ALLOW_REQUEST_TOOL_CONTROL := None;
     ENABLE_INLINE_CITATIONS := None;
     INCLUDE_GROUNDING_METADATA := None;
     INCLUDE_SEARCH_ENTRY_POINT := None |}.

(** Settings with native tools, Search and URL Context enabled and
    default-to-native on, as in the examples of the specification. *)
Definition sampleSettings (prio : string) (requestControl : bool)
  : NativeToolsEnvSettings :=
  {| enableNativeTools := true;
     enableGoogleSearch := true;
     enableUrlContext := true;
     priority := prio;
     defaultToNativeTools := true;
     allowRequestControl := requestControl;
     enableInlineCitations := false;
     includeGroundingMetadata := true;
     includeSearchEntryPoint := false |}.

Definition sampleManager (prio : string) (requestControl : bool)
  : NativeToolsManager :=
  {| envSettings := sampleSettings prio requestControl |}.

(** A manager built from an environment that enables native tools and
    Search but leaves URL Context unset. *)
Definition searchOnlyManager : NativeToolsManager :=
  constructor
    {| ENABLE_GEMINI_NATIVE_TOOLS := Some "true";
       ENABLE_GOOGLE_SEARCH := Some "true";
       ENABLE_URL_CONTEXT := None;
       GEMINI_TOOLS_PRIORITY := None;
       DEFAULT_TO_NATIVE_TOOLS := None;
       ALLOW_REQUEST_TOOL_CONTROL := None;
       ENABLE_INLINE_CITATIONS := None;
       INCLUDE_GROUNDING_METADATA := None;
       INCLUDE_SEARCH_ENTRY_POINT := None |}.

(** The request [{}] and the request [{enableNativeTools: true}]. *)
Definition noOverrides : NativeToolsRequestParams :=
  {| rp_enableNativeTools := None;
     rp_enableSearch := None;
     rp_enableUrlContext := None;
     rp_nativeToolsPriority := None |}.

Definition requestNative : NativeToolsRequestParams :=
  {| rp_enableNativeTools := Some true;
     rp_enableSearch := None;
     rp_enableUrlContext := None;
     rp_nativeToolsPriority := None |}.

(** A custom tool, here identified by its name. *)
Definition toolA : string := "toolA".

(** A manager whose environment leaves Search off and URL Context on,
    with default-to-native on and request control as given. *)
Definition urlOnlyManager (prio : string) (requestControl : bool)
  : NativeToolsManager :=
  {| envSettings :=
       {| enableNativeTools := true;
          enableGoogleSearch := false;
          enableUrlContext := true;
          priority := prio;
          defaultToNativeTools := true;
          allowRequestControl := requestControl;
          enableInlineCitations := false;
          includeGroundingMetadata := true;
          includeSearchEntryPoint := false |} |}.

(** A manager whose environment enables native tools but neither Search
    nor URL Context. *)
Definition noToolManager : NativeToolsManager :=
  {| envSettings :=
       {| enableNativeTools := true;
          enableGoogleSearch := false;
          enableUrlContext := false;
          priority := "native_first";
          defaultToNativeTools := true;
          allowRequestControl := true;
          enableInlineCitations := false;
          includeGroundingMetadata := true;
          includeSearchEntryPoint := false |} |}.

(** The request [{enableSearch: true}] and a request that asks for
    native tools with the given tools priority. *)
Definition requestSearch : NativeToolsRequestParams :=
  {| rp_enableNativeTools := None;
     rp_enableSearch := Some true;
     rp_enableUrlContext := None;
     rp_nativeToolsPriority := None |}.

Definition requestNativeWith (prio : string) : NativeToolsRequestParams :=
  {| rp_enableNativeTools := Some true;
     rp_enableSearch := None;
     rp_enableUrlContext := None;
     rp_nativeToolsPriority := Some prio |}.

(** ** Facts about the string primitives *)

Lemma starts_with_append (p t : string) : starts_with p (p ++ t) = true.
Proof.
  induction p as [|a p IH]; simpl.
  - reflexivity.
  - rewrite Ascii.eqb_refl. exact IH.
Qed.

Lemma starts_with_split (p s : string) :
  starts_with p s = true -> exists t, s = p ++ t.
Proof.
  revert s. induction p as [|a p IH]; intros s H.
  - exists s. reflexivity.
  - destruct s as [|b s]; simpl in H; [discriminate|].
    apply andb_true_iff in H. destruct H as [Hab Hps].
    apply Ascii.eqb_eq in Hab. subst b.
    destruct (IH s Hps) as [t ->].
    exists t. reflexivity.
Qed.

Lemma includes_here (s needle : string) :
  starts_with needle s = true -> includes s needle = true.
Proof.
  intros H. destruct s; simpl; rewrite H; reflexivity.
Qed.

(** [includes] decides the occurrence of [needle] as a contiguous
    substring. *)
Lemma includes_occurs (s needle : string) :
  includes s needle = true <->
  exists pre post, s = pre ++ needle ++ post.
Proof.
  split.
  - induction s as [|c s IH]; simpl; intros H.
    + rewrite orb_false_r in H.
      apply starts_with_split in H. destruct H as [t Ht].
      exists "", t. exact Ht.
    + apply orb_true_iff in H. destruct H as [H|H].
      * apply starts_with_split in H. destruct H as [t Ht].
        exists "", t. exact Ht.
      * destruct (IH H) as (pre & post & ->).
        exists (String c pre), post. reflexivity.
  - intros (pre & post & ->).
    induction pre as [|c pre IH].
    + apply includes_here. exact (starts_with_append needle post).
    + simpl in *. rewrite IH. apply orb_true_r.
Qed.

Lemma str_is_eq (x : option string) (lit : string) :
  str_is x lit = true <-> x = Some lit.
Proof.
  destruct x as [s|]; simpl.
  - rewrite String.eqb_eq. split; congruence.
  - split; discriminate.
Qed.

Lemma or_default_spec (x : option string) (d : string) :
  or_default x d =
  match x with
  | Some s => if String.eqb s "" then d else s
  | None => d
  end.
Proof.
  destruct x as [[|c s]|]; reflexivity.
Qed.

(** ** Structure of the two operations *)

Ltac split_ifs :=
  repeat match goal with
         | |- context [if ?b then _ else _] => destruct b eqn:?
         end.

(** The native tools array has one of three shapes. *)
Lemma createNativeToolsArray_shape this params modelId :
  createNativeToolsArray this params modelId =
  if shouldEnableGoogleSearch this params then
    if isLegacyModel modelId then [] else [google_search]
  else if shouldEnableUrlContext this params then [url_context]
  else [].
Proof.
  unfold createNativeToolsArray, push.
  destruct (shouldEnableGoogleSearch this params),
           (shouldEnableUrlContext this params),
           (isLegacyModel modelId); reflexivity.
Qed.

Lemma request_false_disables_search this params :
  rp_enableSearch params = Some false ->
  shouldEnableGoogleSearch this params = false.
Proof. unfold shouldEnableGoogleSearch. intros ->. reflexivity. Qed.

Lemma request_false_disables_url_context this params :
  rp_enableUrlContext params = Some false ->
  shouldEnableUrlContext this params = false.
Proof. unfold shouldEnableUrlContext. intros ->. reflexivity. Qed.

Section Properties.

Variable Tool : Type.
Implicit Types (this : NativeToolsManager) (ct : list Tool).
Implicit Types (rp : NativeToolsRequestParams) (m : string).

Lemma nonempty_iff ct : nonempty ct = true <-> ct <> [].
Proof.
  destruct ct; unfold nonempty; simpl; split; intros H;
    solve [discriminate | reflexivity | contradiction].
Qed.

(** With no custom tool the tie-break has only native outcomes. *)
Lemma tie_break_nil this rp m :
  createSearchAndUrlConfig this rp (@nil Tool) m =
  nativeConfig (createNativeToolsArray this rp m).
Proof.
  unfold createSearchAndUrlConfig, nativeConfig, nonempty. simpl.
  rewrite andb_false_r. split_ifs; reflexivity.
Qed.

(** The tie-break returns one of the two configurations. *)
Lemma tie_break_cases this rp ct m :
  createSearchAndUrlConfig this rp ct m =
    nativeConfig (createNativeToolsArray this rp m)
  \/ createSearchAndUrlConfig this rp ct m = createCustomOnlyConfig ct.
Proof.
  unfold createSearchAndUrlConfig, nativeConfig.
  split_ifs; auto.
Qed.

(** [determineToolConfiguration] enters the tie-break exactly under
    [reachesTieBreak], and is custom-only otherwise. *)
Lemma determine_unfold this ct rp m :
  determineToolConfiguration this ct rp m =
  if reachesTieBreak this ct rp
  then createSearchAndUrlConfig this rp ct m
  else createCustomOnlyConfig ct.
Proof.
  unfold determineToolConfiguration, reachesTieBreak.
  destruct (enableNativeTools (envSettings this)); simpl; [|reflexivity].
  destruct (allowRequestControl (envSettings this)
            && is_false (rp_enableNativeTools rp)); reflexivity.
Qed.

Lemma determine_cases this ct rp m :
  determineToolConfiguration this ct rp m =
    nativeConfig (createNativeToolsArray this rp m)
  \/ determineToolConfiguration this ct rp m = createCustomOnlyConfig ct.
Proof.
  rewrite determine_unfold.
  destruct (reachesTieBreak this ct rp); [apply tie_break_cases | now right].
Qed.

(** ** The claims *)

(** C1. For every environment settings value, custom tools sequence,
    request parameters value and model id, the configuration returned by
    [determineToolConfiguration] never has [useNativeTools] and
    [useCustomTools] both true; when [useNativeTools] is true the
    [customTools] field is absent, and when [useCustomTools] is true the
    [nativeTools] sequence is empty. *)
Theorem native_and_custom_exclusive :
  forall this ct rp m,
    useNativeTools (determineToolConfiguration this ct rp m)
      && useCustomTools (determineToolConfiguration this ct rp m) = false
    /\ (useNativeTools (determineToolConfiguration this ct rp m) = true ->
        customTools (determineToolConfiguration this ct rp m) = None)
    /\ (useCustomTools (determineToolConfiguration this ct rp m) = true ->
        nativeTools (determineToolConfiguration this ct rp m) = []).
Proof.
  intros this ct rp m.
  destruct (determine_cases this ct rp m) as [-> | ->]; simpl;
    repeat split; intros; congruence.
Qed.

(** C4. If the environment settings have [enableNativeTools] false, then
    for every request, custom tools sequence and model id
    [determineToolConfiguration] returns the custom-only configuration:
    [useNativeTools] false, [useCustomTools] true, [nativeTools] empty,
    the custom tools passed through verbatim, priority "custom",
    toolType "custom_only". *)
Theorem env_disabled_gives_custom_only :
  forall this ct rp m,
    enableNativeTools (envSettings this) = false ->
    determineToolConfiguration this ct rp m =
    {| useNativeTools := false;
       useCustomTools := true;
       nativeTools := [];
       customTools := Some ct;
       cfg_priority := "custom";
       toolType := "custom_only" |}.
Proof.
  intros this ct rp m Hoff.
  unfold determineToolConfiguration. rewrite Hoff. reflexivity.
Qed.

(** C5. If [allowRequestControl] is true and the request explicitly sets
    [enableNativeTools] to false, [determineToolConfiguration] returns
    the custom-only configuration, whatever the other environment
    settings (native tools enabled, default-to-native true, ...). *)
Theorem request_disable_gives_custom_only :
  forall this ct rp m,
    allowRequestControl (envSettings this) = true ->
    rp_enableNativeTools rp = Some false ->
    determineToolConfiguration this ct rp m =
    {| useNativeTools := false;
       useCustomTools := true;
       nativeTools := [];
       customTools := Some ct;
       cfg_priority := "custom";
       toolType := "custom_only" |}.
Proof.
  intros this ct rp m Hctl Hreq.
  unfold determineToolConfiguration. rewrite Hctl, Hreq. simpl.
  case (negb (enableNativeTools (envSettings this))); reflexivity.
Qed.

(** Default-to-native is switched off by any custom tool: without an
    explicit request the tie-break is not entered. *)
Lemma no_default_with_custom_tools this ct rp :
  ct <> [] ->
  rp_enableNativeTools rp <> Some true ->
  rp_enableSearch rp <> Some true ->
  rp_enableUrlContext rp <> Some true ->
  shouldConsiderNative this ct rp = false.
Proof.
  intros Hct Hn Hs Hu.
  unfold shouldConsiderNative, nativeRequestedExplicitly,
    shouldDefaultToNative.
  apply nonempty_iff in Hct. rewrite Hct.
  assert (Ht : forall x, x <> Some true -> is_true x = false)
    by (intros [[|]|] ?; simpl; congruence).
  rewrite (Ht _ Hn), (Ht _ Hs), (Ht _ Hu). simpl.
  rewrite !andb_false_r. reflexivity.
Qed.

(** C3. With native tools enabled and request control allowed, for every
    non-empty custom tools sequence, every model id and every request
    that sets none of [enableNativeTools], [enableSearch],
    [enableUrlContext] to true, [determineToolConfiguration] returns the
    custom-only configuration. *)
Theorem custom_tools_suppress_default_native :
  forall this ct rp m,
    enableNativeTools (envSettings this) = true ->
    allowRequestControl (envSettings this) = true ->
    ct <> [] ->
    rp_enableNativeTools rp <> Some true ->
    rp_enableSearch rp <> Some true ->
    rp_enableUrlContext rp <> Some true ->
    determineToolConfiguration this ct rp m =
    {| useNativeTools := false;
       useCustomTools := true;
       nativeTools := [];
       customTools := Some ct;
       cfg_priority := "custom";
       toolType := "custom_only" |}.
Proof.
  intros this ct rp m _ _ Hct Hn Hs Hu.
  rewrite determine_unfold. unfold reachesTieBreak.
  rewrite (no_default_with_custom_tools this ct rp Hct Hn Hs Hu).
  rewrite andb_false_r. reflexivity.
Qed.

(** C6. Whenever the tie-break is reached and the custom tools sequence
    is empty, the result is the native configuration ([useNativeTools]
    true, [useCustomTools] false, priority "native", toolType
    "search_and_url"), whatever the environment priority and the
    request's tools priority are.  The three parts: the tie-break itself
    on an empty sequence; [determineToolConfiguration] whenever its
    guards lead to the tie-break; and the instance with environment
    priority [custom_first] and request [{enableNativeTools: true}]. *)
Theorem tie_break_without_custom_tools_is_native :
  forall this rp m ct,
    ct = [] ->
    createSearchAndUrlConfig this rp ct m =
      {| useNativeTools := true;
         useCustomTools := false;
         nativeTools := createNativeToolsArray this rp m;
         customTools := None;
         cfg_priority := "native";
         toolType := "search_and_url" |}
    /\ (reachesTieBreak this ct rp = true ->
        determineToolConfiguration this ct rp m =
          {| useNativeTools := true;
             useCustomTools := false;
             nativeTools := createNativeToolsArray this rp m;
             customTools := None;
             cfg_priority := "native";
             toolType := "search_and_url" |})
    /\ (priority (envSettings this) = "custom_first" ->
        rp = {| rp_enableNativeTools := Some true;
                rp_enableSearch := None;
                rp_enableUrlContext := None;
                rp_nativeToolsPriority := None |} ->
        enableNativeTools (envSettings this) = true ->
        enableGoogleSearch (envSettings this)
          || enableUrlContext (envSettings this) = true ->
        allowRequestControl (envSettings this)
          || defaultToNativeTools (envSettings this) = true ->
        useNativeTools (determineToolConfiguration this ct rp m) = true
        /\ useCustomTools (determineToolConfiguration this ct rp m) = false
        /\ cfg_priority (determineToolConfiguration this ct rp m) = "native"
        /\ toolType (determineToolConfiguration this ct rp m)
           = "search_and_url").
Proof.
  intros this rp m ct ->.
  pose proof (tie_break_nil this rp m) as Hnil.
  unfold nativeConfig in Hnil.
  split; [exact Hnil|]. split.
  - intros Hreach. rewrite determine_unfold, Hreach. exact Hnil.
  - intros _ -> Hon Havail Hctl.
    rewrite determine_unfold.
    assert (Hreach : reachesTieBreak this (@nil Tool)
              {| rp_enableNativeTools := Some true;
                 rp_enableSearch := None;
                 rp_enableUrlContext := None;
                 rp_nativeToolsPriority := None |} = true).
    { unfold reachesTieBreak, shouldConsiderNative,
        nativeRequestedExplicitly, shouldDefaultToNative, nonempty.
      simpl. rewrite Hon, Havail.
      destruct (allowRequestControl (envSettings this)),
               (defaultToNativeTools (envSettings this));
        simpl in *; congruence. }
    rewrite Hreach, Hnil. simpl. repeat split.
Qed.

(** C10. [determineToolConfiguration] can return a configuration with
    [useNativeTools] true and an empty [nativeTools] sequence.  Whenever
    the native configuration is returned, the sequence is empty (a) if
    Search resolves enabled, the model id contains the legacy marker and
    URL Context does not resolve enabled, and (b) if the request sets
    [enableNativeTools] to true and both [enableSearch] and
    [enableUrlContext] to false; and each case occurs. *)
Theorem native_configuration_with_no_native_tool :
  (forall this ct rp m,
      useNativeTools (determineToolConfiguration this ct rp m) = true ->
      shouldEnableGoogleSearch this rp = true ->
      (exists pre post, m = pre ++ "gemini-1.5" ++ post) ->
      shouldEnableUrlContext this rp = false ->
      nativeTools (determineToolConfiguration this ct rp m) = [])
  /\ (forall this ct rp m,
      useNativeTools (determineToolConfiguration this ct rp m) = true ->
      rp_enableNativeTools rp = Some true ->
      rp_enableSearch rp = Some false ->
      rp_enableUrlContext rp = Some false ->
      nativeTools (determineToolConfiguration this ct rp m) = [])
  /\ (exists this ct rp m,
      shouldEnableGoogleSearch this rp = true
      /\ (exists pre post, m = pre ++ "gemini-1.5" ++ post)
      /\ shouldEnableUrlContext this rp = false
      /\ useNativeTools (determineToolConfiguration this ct rp m) = true
      /\ nativeTools (determineToolConfiguration this ct rp m) = [])
  /\ (exists this ct rp m,
      rp_enableNativeTools rp = Some true
      /\ rp_enableSearch rp = Some false
      /\ rp_enableUrlContext rp = Some false
      /\ useNativeTools (determineToolConfiguration this ct rp m) = true
      /\ nativeTools (determineToolConfiguration this ct rp m) = []).
Proof.
  split; [|split; [|split]].
  - intros this ct rp m Hnat Hs Hlegacy Hu.
    apply includes_occurs in Hlegacy.
    destruct (determine_cases this ct rp m) as [E | E];
      rewrite E in *; simpl in *; [|discriminate].
    rewrite createNativeToolsArray_shape, Hs.
    unfold isLegacyModel. rewrite Hlegacy. reflexivity.
  - intros this ct rp m Hnat _ Hs Hu.
    destruct (determine_cases this ct rp m) as [E | E];
      rewrite E in *; simpl in *; [|discriminate].
    rewrite createNativeToolsArray_shape.
    rewrite (request_false_disables_search this rp Hs).
    rewrite (request_false_disables_url_context this rp Hu).
    reflexivity.
  - exists {| envSettings :=
                {| enableNativeTools := true;
                   enableGoogleSearch := true;
                   enableUrlContext := false;
                   priority := "native_first";
                   defaultToNativeTools := true;
                   allowRequestControl := true;
                   enableInlineCitations := false;
                   includeGroundingMetadata := true;
                   includeSearchEntryPoint := false |} |},
      (@nil Tool),
      {| rp_enableNativeTools := None;
         rp_enableSearch := None;
         rp_enableUrlContext := None;
         rp_nativeToolsPriority := None |},
      "gemini-1.5-pro".
    repeat split; try reflexivity.
    exists "", "-pro". reflexivity.
  - exists {| envSettings :=
                {| enableNativeTools := true;
                   enableGoogleSearch := true;
                   enableUrlContext := true;
                   priority := "native_first";
                   defaultToNativeTools := true;
                   allowRequestControl := true;
                   enableInlineCitations := false;
                   includeGroundingMetadata := true;
                   includeSearchEntryPoint := false |} |},
      (@nil Tool),
      {| rp_enableNativeTools := Some true;
         rp_enableSearch := Some false;
         rp_enableUrlContext := Some false;
         rp_nativeToolsPriority := None |},
      "gemini-2.0-flash".
    repeat split; reflexivity.
Qed.

End Properties.

(** ** Claims on the native tools array *)

Lemma google_search_needs_search this params modelId :
  In google_search (createNativeToolsArray this params modelId) ->
  shouldEnableGoogleSearch this params = true
  /\ isLegacyModel modelId = false.
Proof.
  rewrite createNativeToolsArray_shape.
  destruct (shouldEnableGoogleSearch this params),
           (isLegacyModel modelId),
           (shouldEnableUrlContext this params); simpl; intuition congruence.
Qed.

Lemma url_context_needs_no_search this params modelId :
  In url_context (createNativeToolsArray this params modelId) ->
  shouldEnableGoogleSearch this params = false
  /\ shouldEnableUrlContext this params = true.
Proof.
  rewrite createNativeToolsArray_shape.
  destruct (shouldEnableGoogleSearch this params),
           (isLegacyModel modelId),
           (shouldEnableUrlContext this params); simpl; intuition congruence.
Qed.

(** C7. For every request and every model id that contains the legacy
    marker (the substring "gemini-1.5"), the sequence returned by
    [createNativeToolsArray] contains no [google_search] descriptor,
    whether or not Search resolves to enabled. *)
Theorem legacy_model_gets_no_google_search :
  forall this rp m,
    (exists pre post, m = pre ++ "gemini-1.5" ++ post) ->
    ~ In google_search (createNativeToolsArray this rp m).
Proof.
  intros this rp m Hmarker Hin.
  apply google_search_needs_search in Hin. destruct Hin as [_ Hmodern].
  apply includes_occurs in Hmarker.
  unfold isLegacyModel in Hmodern. congruence.
Qed.

(** C8. For every request and model id the sequence returned by
    [createNativeToolsArray] never contains both a [google_search] and a
    [url_context] descriptor; a [url_context] descriptor is emitted only
    when Search does not resolve to enabled. *)
Theorem search_and_url_context_exclusive :
  forall this rp m,
    ~ (In google_search (createNativeToolsArray this rp m)
       /\ In url_context (createNativeToolsArray this rp m))
    /\ (In url_context (createNativeToolsArray this rp m) ->
        shouldEnableGoogleSearch this rp = false).
Proof.
  intros this rp m. split.
  - intros [Hg Hu].
    apply google_search_needs_search in Hg.
    apply url_context_needs_no_search in Hu.
    destruct Hg as [Hg _], Hu as [Hu _]. congruence.
  - intros Hu. apply url_context_needs_no_search in Hu. tauto.
Qed.

(** The array does not read [allowRequestControl]. *)
Lemma createNativeToolsArray_ignores_request_control this params modelId b :
  createNativeToolsArray (with_allowRequestControl this b) params modelId
  = createNativeToolsArray this params modelId.
Proof. reflexivity. Qed.

(** C9. The per-feature request overrides are honoured when
    request-level control is disallowed.  With [allowRequestControl]
    false: a request [enableSearch = false] keeps [google_search] out of
    the array and [enableUrlContext = false] keeps [url_context] out of
    it, both in [createNativeToolsArray] and in the [nativeTools] of the
    configuration returned by [determineToolConfiguration]; the array is
    reached through the default-to-native path; and it does not depend on
    [allowRequestControl] at all. *)
Theorem feature_overrides_not_gated_by_request_control :
  forall (Tool : Type) this (ct : list Tool) rp m,
    allowRequestControl (envSettings this) = false ->
    (rp_enableSearch rp = Some false ->
       ~ In google_search (createNativeToolsArray this rp m)
       /\ ~ In google_search
            (nativeTools (determineToolConfiguration this ct rp m)))
    /\ (rp_enableUrlContext rp = Some false ->
       ~ In url_context (createNativeToolsArray this rp m)
       /\ ~ In url_context
            (nativeTools (determineToolConfiguration this ct rp m)))
    /\ (enableNativeTools (envSettings this) = true ->
        enableGoogleSearch (envSettings this)
          || enableUrlContext (envSettings this) = true ->
        defaultToNativeTools (envSettings this) = true ->
        ct = [] ->
        useNativeTools (determineToolConfiguration this ct rp m) = true
        /\ nativeTools (determineToolConfiguration this ct rp m)
           = createNativeToolsArray this rp m)
    /\ (forall b,
        createNativeToolsArray (with_allowRequestControl this b) rp m
        = createNativeToolsArray this rp m).
Proof.
  intros Tool this ct rp m Hctl.
  assert (Hsub : forall t,
             In t (nativeTools (determineToolConfiguration this ct rp m)) ->
             In t (createNativeToolsArray this rp m)).
  { intros t. destruct (determine_cases Tool this ct rp m) as [-> | ->];
      simpl; tauto. }
  split; [|split; [|split]].
  - intros Hs.
    assert (Hno : ~ In google_search (createNativeToolsArray this rp m)).
    { intros Hin. apply google_search_needs_search in Hin.
      rewrite (request_false_disables_search this rp Hs) in Hin.
      destruct Hin; discriminate. }
    split; [exact Hno | intros Hin; exact (Hno (Hsub _ Hin))].
  - intros Hu.
    assert (Hno : ~ In url_context (createNativeToolsArray this rp m)).
    { intros Hin. apply url_context_needs_no_search in Hin.
      rewrite (request_false_disables_url_context this rp Hu) in Hin.
      destruct Hin; discriminate. }
    split; [exact Hno | intros Hin; exact (Hno (Hsub _ Hin))].
  - intros Hon Havail Hdef ->.
    rewrite determine_unfold, tie_break_nil.
    unfold reachesTieBreak, shouldConsiderNative,
      nativeRequestedExplicitly, shouldDefaultToNative, nonempty.
    rewrite Hon, Hctl, Havail, Hdef. simpl. split; reflexivity.
  - intros b. apply createNativeToolsArray_ignores_request_control.
Qed.

(** ** Environment parsing *)

(** C2, as amended.  When the tools-priority variable is set to a string
    that is neither [native_first] nor [custom_first], parsing does not
    fail; the parsed priority is the default [native_first] only when the
    string is empty, and is otherwise the string itself, unchanged. *)
Theorem unrecognized_priority_is_kept :
  forall env s,
    GEMINI_TOOLS_PRIORITY env = Some s ->
    s <> "native_first" ->
    s <> "custom_first" ->
    priority (parseEnvironmentSettings env) =
    if String.eqb s "" then "native_first" else s.
Proof.
  intros env s Hset _ _.
  unfold parseEnvironmentSettings; simpl.
  rewrite or_default_spec, Hset. reflexivity.
Qed.

(** C2 fails as stated: the unrecognized value "banana" is not replaced
    by [native_first]. *)
Lemma unrecognized_priority_no_fallback :
  ~ (forall env s,
        GEMINI_TOOLS_PRIORITY env = Some s ->
        s <> "native_first" ->
        s <> "custom_first" ->
        priority (parseEnvironmentSettings env) = "native_first").
Proof.
  intros H.
  specialize (H (env_with_priority (Some "banana")) "banana" eq_refl).
  simpl in H.
  assert (E : "banana" = "native_first") by (apply H; discriminate).
  discriminate E.
Qed.

(** ** Concrete instances *)

Example constructor_sample :
  constructor (env_with_priority None) = sampleManager "native_first" true
  /\ constructor (env_with_priority (Some "custom_first"))
     = sampleManager "custom_first" true.
Proof. split; reflexivity. Qed.

Example default_native_without_custom_tools :
  determineToolConfiguration (sampleManager "native_first" true)
    (@nil string) noOverrides "gemini-2.0"
  = nativeConfig [google_search].
Proof. reflexivity. Qed.

Example default_native_suppressed_by_custom_tool :
  determineToolConfiguration (sampleManager "native_first" true)
    [toolA] noOverrides "gemini-2.0"
  = createCustomOnlyConfig [toolA].
Proof. reflexivity. Qed.

Example explicit_request_beats_custom_tool :
  determineToolConfiguration (sampleManager "native_first" true)
    [toolA] requestNative "gemini-2.0"
  = nativeConfig [google_search].
Proof. reflexivity. Qed.

Example custom_first_without_custom_tools :
  determineToolConfiguration (sampleManager "custom_first" true)
    (@nil string) requestNative "gemini-2.0"
  = nativeConfig [google_search].
Proof. reflexivity. Qed.

Example url_context_alone :
  createNativeToolsArray (sampleManager "native_first" true)
    {| rp_enableNativeTools := None;
       rp_enableSearch := Some false;
       rp_enableUrlContext := None;
       rp_nativeToolsPriority := None |} "gemini-2.0"
  = [url_context].
Proof. reflexivity. Qed.

Example legacy_detection :
  isLegacyModel "gemini-1.5-pro" = true
  /\ isLegacyModel "models/gemini-1.5-flash-8b" = true
  /\ isLegacyModel "gemini-2.5-pro" = false
  /\ isLegacyModel "gemini-1.0" = false.
Proof. repeat split; reflexivity. Qed.

(** An unrecognized priority is not equivalent to [native_first] in the
    tie-break: with request priority "custom" and a custom tool, the
    kept string "banana" yields custom-only where [native_first] yields
    the native configuration. *)
Example unrecognized_priority_observable :
  let rp := {| rp_enableNativeTools := Some true;
               rp_enableSearch := None;
               rp_enableUrlContext := None;
               rp_nativeToolsPriority := Some "custom" |} in
  determineToolConfiguration
    (constructor (env_with_priority (Some "banana"))) [toolA] rp "gemini-2.0"
  = createCustomOnlyConfig [toolA]
  /\ determineToolConfiguration
       (constructor (env_with_priority (Some "native_first")))
       [toolA] rp "gemini-2.0"
     = nativeConfig [google_search].
Proof. split; reflexivity. Qed.

(** *** Instances of the theorems *)

Lemma native_and_custom_exclusive_witness :
  useNativeTools
    (determineToolConfiguration (sampleManager "native_first" true)
       [toolA] requestNative "gemini-2.0") = true
  /\ customTools
       (determineToolConfiguration (sampleManager "native_first" true)
          [toolA] requestNative "gemini-2.0") = None.
Proof.
  split; [reflexivity|].
  apply (native_and_custom_exclusive string
           (sampleManager "native_first" true) [toolA] requestNative
           "gemini-2.0").
  reflexivity.
Defined.

Lemma unrecognized_priority_is_kept_witness :
  priority (parseEnvironmentSettings (env_with_priority (Some "banana")))
  = "banana".
Proof.
  apply (unrecognized_priority_is_kept
           (env_with_priority (Some "banana")) "banana");
    [reflexivity | discriminate | discriminate].
Defined.

Lemma custom_tools_suppress_default_native_witness :
  determineToolConfiguration (sampleManager "native_first" true)
    [toolA] noOverrides "gemini-2.0"
  = {| useNativeTools := false;
       useCustomTools := true;
       nativeTools := [];
       customTools := Some [toolA];
       cfg_priority := "custom";
       toolType := "custom_only" |}.
Proof.
  apply (custom_tools_suppress_default_native string);
    simpl; solve [reflexivity | discriminate].
Defined.

Lemma env_disabled_gives_custom_only_witness :
  determineToolConfiguration
    (constructor
       {| ENABLE_GEMINI_NATIVE_TOOLS := Some "false";
          ENABLE_GOOGLE_SEARCH := Some "true";
          ENABLE_URL_CONTEXT := Some "true";
          GEMINI_TOOLS_PRIORITY := None;
          DEFAULT_TO_NATIVE_TOOLS := None;
          ALLOW_REQUEST_TOOL_CONTROL := None;
          ENABLE_INLINE_CITATIONS := None;
          INCLUDE_GROUNDING_METADATA := None;
          INCLUDE_SEARCH_ENTRY_POINT := None |})
    [toolA] requestNative "gemini-2.0"
  = {| useNativeTools := false;
       useCustomTools := true;
       nativeTools := [];
       customTools := Some [toolA];
       cfg_priority := "custom";
       toolType := "custom_only" |}.
Proof.
  apply (env_disabled_gives_custom_only string). reflexivity.
Defined.

Lemma request_disable_gives_custom_only_witness :
  determineToolConfiguration (sampleManager "native_first" true)
    (@nil string)
    {| rp_enableNativeTools := Some false;
       rp_enableSearch := Some true;
       rp_enableUrlContext := None;
       rp_nativeToolsPriority := Some "native" |} "gemini-2.0"
  = {| useNativeTools := false;
       useCustomTools := true;
       nativeTools := [];
       customTools := Some [];
       cfg_priority := "custom";
       toolType := "custom_only" |}.
Proof.
  apply (request_disable_gives_custom_only string); reflexivity.
Defined.

Lemma tie_break_without_custom_tools_is_native_witness :
  useNativeTools
    (determineToolConfiguration (sampleManager "custom_first" true)
       (@nil string) requestNative "gemini-2.0") = true
  /\ useCustomTools
       (determineToolConfiguration (sampleManager "custom_first" true)
          (@nil string) requestNative "gemini-2.0") = false
  /\ cfg_priority
       (determineToolConfiguration (sampleManager "custom_first" true)
          (@nil string) requestNative "gemini-2.0") = "native"
  /\ toolType
       (determineToolConfiguration (sampleManager "custom_first" true)
          (@nil string) requestNative "gemini-2.0") = "search_and_url".
Proof.
  destruct (tie_break_without_custom_tools_is_native string
              (sampleManager "custom_first" true) requestNative
              "gemini-2.0" [] eq_refl) as (_ & _ & Hinstance).
  apply Hinstance; reflexivity.
Defined.

Lemma legacy_model_gets_no_google_search_witness :
  shouldEnableGoogleSearch (sampleManager "native_first" true) noOverrides
  = true
  /\ ~ In google_search
       (createNativeToolsArray (sampleManager "native_first" true)
          noOverrides "gemini-1.5-pro").
Proof.
  split; [reflexivity|].
  apply legacy_model_gets_no_google_search.
  exists "", "-pro". reflexivity.
Defined.

Lemma search_and_url_context_exclusive_witness :
  In url_context
    (createNativeToolsArray (sampleManager "native_first" true)
       {| rp_enableNativeTools := None;
          rp_enableSearch := Some false;
          rp_enableUrlContext := None;
          rp_nativeToolsPriority := None |} "gemini-2.0")
  /\ shouldEnableGoogleSearch (sampleManager "native_first" true)
       {| rp_enableNativeTools := None;
          rp_enableSearch := Some false;
          rp_enableUrlContext := None;
          rp_nativeToolsPriority := None |} = false.
Proof.
  split; [left; reflexivity|].
  apply (search_and_url_context_exclusive
           (sampleManager "native_first" true) _ "gemini-2.0").
  left. reflexivity.
Defined.

Lemma feature_overrides_not_gated_by_request_control_witness :
  useNativeTools
    (determineToolConfiguration (sampleManager "native_first" false)
       (@nil string)
       {| rp_enableNativeTools := None;
          rp_enableSearch := Some false;
          rp_enableUrlContext := None;
          rp_nativeToolsPriority := None |} "gemini-2.0") = true
  /\ ~ In google_search
       (nativeTools
          (determineToolConfiguration (sampleManager "native_first" false)
             (@nil string)
             {| rp_enableNativeTools := None;
                rp_enableSearch := Some false;
                rp_enableUrlContext := None;
                rp_nativeToolsPriority := None |} "gemini-2.0")).
Proof.
  destruct (feature_overrides_not_gated_by_request_control string
              (sampleManager "native_first" false) []
              {| rp_enableNativeTools := None;
                 rp_enableSearch := Some false;
                 rp_enableUrlContext := None;
                 rp_nativeToolsPriority := None |} "gemini-2.0" eq_refl)
    as (Hsearch & _ & Hpath & _).
  split.
  - apply Hpath; reflexivity.
  - apply Hsearch. reflexivity.
Defined.

Lemma native_configuration_with_no_native_tool_witness :
  nativeTools
    (determineToolConfiguration searchOnlyManager
       (@nil string) noOverrides "gemini-1.5-pro") = []
  /\ nativeTools
       (determineToolConfiguration (sampleManager "native_first" true)
          [toolA]
          {| rp_enableNativeTools := Some true;
             rp_enableSearch := Some false;
             rp_enableUrlContext := Some false;
             rp_nativeToolsPriority := None |} "gemini-2.0") = [].
Proof.
  destruct (native_configuration_with_no_native_tool string)
    as (Hlegacy & Hoff & _).
  split.
  - apply Hlegacy; try reflexivity.
    exists "", "-pro". reflexivity.
  - apply Hoff; reflexivity.
Defined.

(** ** Further properties of the resolution *)

(** The array reads the request only through [enableSearch] and
    [enableUrlContext]. *)
Lemma createNativeToolsArray_ext this params params' modelId :
  rp_enableSearch params = rp_enableSearch params' ->
  rp_enableUrlContext params = rp_enableUrlContext params' ->
  createNativeToolsArray this params modelId
  = createNativeToolsArray this params' modelId.
Proof.
  intros Hs Hu.
  unfold createNativeToolsArray, shouldEnableGoogleSearch,
    shouldEnableUrlContext.
  rewrite Hs, Hu. reflexivity.
Qed.

Lemma not_Some_true (x : option bool) : x <> Some true -> is_true x = false.
Proof. destruct x as [[|]|]; simpl; congruence. Qed.

Lemma str_is_neq (x : option string) (lit : string) :
  x <> Some lit -> str_is x lit = false.
Proof.
  intros H. destruct (str_is x lit) eqn:E; [|reflexivity].
  apply str_is_eq in E. contradiction.
Qed.

Section MoreProperties.

Variable Tool : Type.
Implicit Types (this : NativeToolsManager) (ct : list Tool).
Implicit Types (rp : NativeToolsRequestParams) (m : string).

(** X1. The native tools array holds at most one descriptor, and so does
    the [nativeTools] field of every configuration returned by
    [determineToolConfiguration]. *)
Theorem at_most_one_native_tool :
  forall this ct rp m,
    List.length (createNativeToolsArray this rp m) <= 1
    /\ List.length (nativeTools (determineToolConfiguration this ct rp m))
       <= 1.
Proof.
  intros this ct rp m.
  assert (Harr : List.length (createNativeToolsArray this rp m) <= 1).
  { rewrite createNativeToolsArray_shape. split_ifs; simpl; auto. }
  split; [exact Harr|].
  destruct (determine_cases Tool this ct rp m) as [-> | ->]; simpl; auto.
Qed.

(** X14. The fields of a returned configuration are tied together:
    exactly one of [useNativeTools] and [useCustomTools] is true,
    [priority] and [toolType] follow [useNativeTools], and [customTools]
    is the caller's sequence, unchanged, exactly when the configuration
    is custom-only. *)
Theorem configuration_fields_consistent :
  forall this ct rp m,
    useCustomTools (determineToolConfiguration this ct rp m)
      = negb (useNativeTools (determineToolConfiguration this ct rp m))
    /\ cfg_priority (determineToolConfiguration this ct rp m)
       = (if useNativeTools (determineToolConfiguration this ct rp m)
          then "native" else "custom")
    /\ toolType (determineToolConfiguration this ct rp m)
       = (if useNativeTools (determineToolConfiguration this ct rp m)
          then "search_and_url" else "custom_only")
    /\ customTools (determineToolConfiguration this ct rp m)
       = (if useNativeTools (determineToolConfiguration this ct rp m)
          then None else Some ct).
Proof.
  intros this ct rp m.
  destruct (determine_cases Tool this ct rp m) as [-> | ->];
    simpl; repeat split.
Qed.

(** X4. Once the tie-break is reached, an environment priority
    [native_first] or a request priority "native" gives the native
    configuration, whatever custom tools the caller passed (they are
    dropped) and whatever the other of the two priorities says. *)
Theorem native_priority_wins :
  forall this ct rp m,
    reachesTieBreak this ct rp = true ->
    priority (envSettings this) = "native_first"
      \/ rp_nativeToolsPriority rp = Some "native" ->
    determineToolConfiguration this ct rp m =
    {| useNativeTools := true;
       useCustomTools := false;
       nativeTools := createNativeToolsArray this rp m;
       customTools := None;
       cfg_priority := "native";
       toolType := "search_and_url" |}.
Proof.
  intros this ct rp m Hreach Hprio.
  rewrite determine_unfold, Hreach.
  unfold createSearchAndUrlConfig.
  assert (Hb : String.eqb (priority (envSettings this)) "native_first"
               || str_is (rp_nativeToolsPriority rp) "native" = true).
  { apply orb_true_iff. destruct Hprio as [H | H].
    - left. apply String.eqb_eq. exact H.
    - right. apply str_is_eq. exact H. }
  rewrite Hb. reflexivity.
Qed.

(** X5. With a non-empty custom tools sequence, when neither priority
    says native and at least one says custom (environment
    [custom_first] or request "custom"), the result is custom-only for
    every request, explicit native requests included. *)
Theorem custom_priority_keeps_custom_tools :
  forall this ct rp m,
    priority (envSettings this) <> "native_first" ->
    rp_nativeToolsPriority rp <> Some "native" ->
    priority (envSettings this) = "custom_first"
      \/ rp_nativeToolsPriority rp = Some "custom" ->
    ct <> [] ->
    determineToolConfiguration this ct rp m =
    {| useNativeTools := false;
       useCustomTools := true;
       nativeTools := [];
       customTools := Some ct;
       cfg_priority := "custom";
       toolType := "custom_only" |}.
Proof.
  intros this ct rp m Hnf Hrn Hcustom Hct.
  rewrite determine_unfold.
  destruct (reachesTieBreak this ct rp); [|reflexivity].
  unfold createSearchAndUrlConfig.
  apply String.eqb_neq in Hnf. rewrite Hnf.
  rewrite (str_is_neq _ _ Hrn). simpl.
  apply nonempty_iff in Hct. rewrite Hct, andb_true_r.
  assert (Hb : String.eqb (priority (envSettings this)) "custom_first"
               || str_is (rp_nativeToolsPriority rp) "custom" = true).
  { apply orb_true_iff. destruct Hcustom as [H | H].
    - left. apply String.eqb_eq. exact H.
    - right. apply str_is_eq. exact H. }
  rewrite Hb. reflexivity.
Qed.

(** X12. An environment priority that is neither [native_first] nor
    [custom_first] leaves the tie-break to the request: custom-only when
    the request priority is "custom" and custom tools are present, the
    native configuration otherwise. *)
Theorem unrecognized_priority_defers_to_request :
  forall this ct rp m,
    priority (envSettings this) <> "native_first" ->
    priority (envSettings this) <> "custom_first" ->
    createSearchAndUrlConfig this rp ct m =
    if str_is (rp_nativeToolsPriority rp) "custom" && nonempty ct
    then
      {| useNativeTools := false;
         useCustomTools := true;
         nativeTools := [];
         customTools := Some ct;
         cfg_priority := "custom";
         toolType := "custom_only" |}
    else
      {| useNativeTools := true;
         useCustomTools := false;
         nativeTools := createNativeToolsArray this rp m;
         customTools := None;
         cfg_priority := "native";
         toolType := "search_and_url" |}.
Proof.
  intros this ct rp m Hnf Hcf.
  unfold createSearchAndUrlConfig, createCustomOnlyConfig.
  apply String.eqb_neq in Hnf, Hcf. rewrite Hnf, Hcf. simpl.
  destruct (rp_nativeToolsPriority rp) as [s|]; simpl; [|reflexivity].
  destruct (String.eqb s "native") eqn:En; [|reflexivity].
  apply String.eqb_eq in En. subst s. reflexivity.
Qed.

(** X6. When request control is disallowed, the request's
    [enableNativeTools] and [nativeToolsPriority] have no effect: two
    requests that agree on [enableSearch] and [enableUrlContext] get the
    same configuration. *)
Theorem request_control_off_noninterference :
  forall this ct rp rp' m,
    allowRequestControl (envSettings this) = false ->
    rp_enableSearch rp = rp_enableSearch rp' ->
    rp_enableUrlContext rp = rp_enableUrlContext rp' ->
    determineToolConfiguration this ct rp m
    = determineToolConfiguration this ct rp' m.
Proof.
  intros this ct rp rp' m Hctl Hs Hu.
  rewrite !determine_unfold.
  unfold reachesTieBreak, shouldConsiderNative, nativeRequestedExplicitly.
  rewrite Hctl. simpl.
  destruct ct as [|t ct].
  - rewrite !tie_break_nil.
    rewrite (createNativeToolsArray_ext this rp rp' m Hs Hu). reflexivity.
  - unfold shouldDefaultToNative, nonempty. simpl.
    rewrite !andb_false_r. reflexivity.
Qed.

(** X7. The model id decides nothing but the content of [nativeTools]:
    every other field of the configuration is the same for any two model
    ids, and [nativeTools] is the same for two model ids that are both
    legacy or both not. *)
Theorem model_only_affects_native_tools :
  forall this ct rp m m',
    useNativeTools (determineToolConfiguration this ct rp m)
      = useNativeTools (determineToolConfiguration this ct rp m')
    /\ useCustomTools (determineToolConfiguration this ct rp m)
       = useCustomTools (determineToolConfiguration this ct rp m')
    /\ customTools (determineToolConfiguration this ct rp m)
       = customTools (determineToolConfiguration this ct rp m')
    /\ cfg_priority (determineToolConfiguration this ct rp m)
       = cfg_priority (determineToolConfiguration this ct rp m')
    /\ toolType (determineToolConfiguration this ct rp m)
       = toolType (determineToolConfiguration this ct rp m')
    /\ (isLegacyModel m = isLegacyModel m' ->
        determineToolConfiguration this ct rp m
        = determineToolConfiguration this ct rp m').
Proof.
  intros this ct rp m m'.
  rewrite !determine_unfold.
  destruct (reachesTieBreak this ct rp).
  - unfold createSearchAndUrlConfig.
    rewrite !createNativeToolsArray_shape.
    split_ifs; simpl; repeat split; intros E; congruence.
  - repeat split.
Qed.

(** X15. For the request without overrides, native tools are used
    exactly when the environment enables native tools, enables Search or
    URL Context, has default-to-native on, and the caller passes no
    custom tool. *)
Theorem plain_request_native_iff :
  forall this ct m,
    useNativeTools (determineToolConfiguration this ct noOverrides m)
    = enableNativeTools (envSettings this)
      && (enableGoogleSearch (envSettings this)
          || enableUrlContext (envSettings this))
      && defaultToNativeTools (envSettings this)
      && negb (nonempty ct).
Proof.
  intros this ct m.
  rewrite determine_unfold.
  unfold reachesTieBreak, shouldConsiderNative, nativeRequestedExplicitly,
    shouldDefaultToNative, noOverrides. simpl.
  rewrite !andb_false_r. simpl. rewrite andb_true_r.
  destruct ct as [|t ct].
  - rewrite tie_break_nil. unfold nonempty. simpl.
    destruct (enableNativeTools (envSettings this)),
             (enableGoogleSearch (envSettings this)),
             (enableUrlContext (envSettings this)),
             (defaultToNativeTools (envSettings this)); reflexivity.
  - unfold nonempty. simpl. rewrite !andb_false_r. reflexivity.
Qed.

(** X16. With custom tools present, the native configuration is returned
    only on an explicit request: request control is allowed, one of
    [enableNativeTools], [enableSearch], [enableUrlContext] is set to
    true, and [enableNativeTools] is not set to false. *)
Theorem native_with_custom_tools_needs_request :
  forall this ct rp m,
    ct <> [] ->
    useNativeTools (determineToolConfiguration this ct rp m) = true ->
    allowRequestControl (envSettings this) = true
    /\ (rp_enableNativeTools rp = Some true
        \/ rp_enableSearch rp = Some true
        \/ rp_enableUrlContext rp = Some true)
    /\ rp_enableNativeTools rp <> Some false.
Proof.
  intros this ct rp m Hct Hnat.
  destruct (allowRequestControl (envSettings this)) eqn:Hctl.
  - split; [reflexivity|].
    destruct (rp_enableNativeTools rp) as [[|]|] eqn:Hn.
    + split; [auto | discriminate].
    + unfold determineToolConfiguration in Hnat.
      rewrite Hctl, Hn in Hnat. simpl in Hnat.
      destruct (negb (enableNativeTools (envSettings this)));
        discriminate.
    + split; [|discriminate].
      destruct (rp_enableSearch rp) as [[|]|] eqn:Hs; auto;
        destruct (rp_enableUrlContext rp) as [[|]|] eqn:Hu; auto;
        exfalso;
        rewrite determine_unfold in Hnat;
        unfold reachesTieBreak, shouldConsiderNative,
          nativeRequestedExplicitly, shouldDefaultToNative in Hnat;
        apply nonempty_iff in Hct;
        rewrite Hn, Hs, Hu, Hct in Hnat; simpl in Hnat;
        rewrite !andb_false_r in Hnat; discriminate.
  - exfalso.
    rewrite determine_unfold in Hnat.
    unfold reachesTieBreak, shouldConsiderNative,
      nativeRequestedExplicitly, shouldDefaultToNative in Hnat.
    apply nonempty_iff in Hct.
    rewrite Hctl, Hct in Hnat. simpl in Hnat.
    rewrite !andb_false_r in Hnat. discriminate.
Qed.

End MoreProperties.

(** X2. Membership in the native tools array, exactly: [google_search]
    is present when and only when Search resolves enabled and the model
    is not legacy; [url_context] is present when and only when URL
    Context resolves enabled and Search does not. *)
Theorem native_tools_membership :
  forall this rp m,
    (In google_search (createNativeToolsArray this rp m) <->
     shouldEnableGoogleSearch this rp = true /\ isLegacyModel m = false)
    /\ (In url_context (createNativeToolsArray this rp m) <->
        shouldEnableUrlContext this rp = true
        /\ shouldEnableGoogleSearch this rp = false).
Proof.
  intros this rp m.
  rewrite createNativeToolsArray_shape.
  destruct (shouldEnableGoogleSearch this rp),
           (shouldEnableUrlContext this rp),
           (isLegacyModel m); simpl; intuition congruence.
Qed.

(** X3. For a legacy model, Search resolving enabled leaves the array
    empty: URL Context is not used as a fallback, even when it resolves
    enabled too. *)
Theorem legacy_model_no_url_context_fallback :
  forall this rp m,
    shouldEnableGoogleSearch this rp = true ->
    isLegacyModel m = true ->
    createNativeToolsArray this rp m = [].
Proof.
  intros this rp m Hs Hlegacy.
  rewrite createNativeToolsArray_shape, Hs, Hlegacy. reflexivity.
Qed.

(** X13. [isLegacyModel] holds exactly for the model ids in which
    "gemini-1.5" occurs as a contiguous substring, at any position. *)
Theorem isLegacyModel_iff_marker_occurs :
  forall m,
    isLegacyModel m = true <->
    exists pre post, m = pre ++ "gemini-1.5" ++ post.
Proof.
  intros m. unfold isLegacyModel. apply includes_occurs.
Qed.

(** X8. A request [enableSearch = true] switches Search on even where
    the environment has it off and request control is disallowed: once
    the tie-break is reached with no custom tool, a non-legacy model gets
    exactly [google_search]. *)
Theorem request_enables_search_despite_environment :
  forall (Tool : Type) this rp m,
    reachesTieBreak this (@nil Tool) rp = true ->
    rp_enableSearch rp = Some true ->
    isLegacyModel m = false ->
    determineToolConfiguration this (@nil Tool) rp m
    = {| useNativeTools := true;
         useCustomTools := false;
         nativeTools := [google_search];
         customTools := None;
         cfg_priority := "native";
         toolType := "search_and_url" |}.
Proof.
  intros Tool this rp m Hreach Hs Hmodern.
  rewrite determine_unfold, Hreach, tie_break_nil.
  rewrite createNativeToolsArray_shape, Hmodern.
  unfold shouldEnableGoogleSearch. rewrite Hs. reflexivity.
Qed.

(** X9. When the environment enables neither Search nor URL Context, the
    result is custom-only for every request, including one that asks for
    Search or for native tools explicitly. *)
Theorem no_available_tool_gives_custom_only :
  forall (Tool : Type) this (ct : list Tool) rp m,
    enableGoogleSearch (envSettings this) = false ->
    enableUrlContext (envSettings this) = false ->
    determineToolConfiguration this ct rp m =
    {| useNativeTools := false;
       useCustomTools := true;
       nativeTools := [];
       customTools := Some ct;
       cfg_priority := "custom";
       toolType := "custom_only" |}.
Proof.
  intros Tool this ct rp m Hg Hu.
  rewrite determine_unfold.
  unfold reachesTieBreak, shouldConsiderNative.
  rewrite Hg, Hu. simpl. rewrite andb_false_r. reflexivity.
Qed.

(** X10. A manager constructed from an environment whose
    [ENABLE_GEMINI_NATIVE_TOOLS] is anything but exactly "true" (unset,
    "TRUE", "1", ...) returns the custom-only configuration for every
    request. *)
Theorem native_tools_need_exact_true :
  forall (Tool : Type) env (ct : list Tool) rp m,
    ENABLE_GEMINI_NATIVE_TOOLS env <> Some "true" ->
    determineToolConfiguration (constructor env) ct rp m =
    {| useNativeTools := false;
       useCustomTools := true;
       nativeTools := [];
       customTools := Some ct;
       cfg_priority := "custom";
       toolType := "custom_only" |}.
Proof.
  intros Tool env ct rp m Hoff.
  unfold determineToolConfiguration, constructor. simpl.
  rewrite (str_is_neq _ _ Hoff). reflexivity.
Qed.

(** X11. The parsed priority is [native_first] exactly when the
    tools-priority variable is unset, empty or "native_first"; and it is
    never the empty string. *)
Theorem parsed_priority_native_first_iff :
  forall env,
    (priority (parseEnvironmentSettings env) = "native_first" <->
     GEMINI_TOOLS_PRIORITY env = None
     \/ GEMINI_TOOLS_PRIORITY env = Some ""
     \/ GEMINI_TOOLS_PRIORITY env = Some "native_first")
    /\ priority (parseEnvironmentSettings env) <> "".
Proof.
  intros env. unfold parseEnvironmentSettings. simpl.
  destruct (GEMINI_TOOLS_PRIORITY env) as [[|c s]|]; simpl.
  - split; [|discriminate]. split; auto.
  - split; [|discriminate]. split.
    + intros ->. auto.
    + intros [H | [H | H]]; congruence.
  - split; [|discriminate]. split; auto.
Qed.

(** *** Instances of the further properties *)

Lemma native_priority_wins_witness :
  determineToolConfiguration (sampleManager "custom_first" true)
    [toolA] (requestNativeWith "native") "gemini-2.0"
  = nativeConfig [google_search].
Proof.
  apply (native_priority_wins string (sampleManager "custom_first" true)
           [toolA] (requestNativeWith "native") "gemini-2.0");
    [reflexivity | right; reflexivity].
Defined.

Lemma custom_priority_keeps_custom_tools_witness :
  determineToolConfiguration (sampleManager "custom_first" true)
    [toolA] requestNative "gemini-2.0"
  = {| useNativeTools := false;
       useCustomTools := true;
       nativeTools := [];
       customTools := Some [toolA];
       cfg_priority := "custom";
       toolType := "custom_only" |}.
Proof.
  apply (custom_priority_keeps_custom_tools string);
    simpl; solve [discriminate | left; reflexivity].
Defined.

Lemma unrecognized_priority_defers_to_request_witness :
  createSearchAndUrlConfig (sampleManager "banana" true)
    (requestNativeWith "custom") [toolA] "gemini-2.0"
  = {| useNativeTools := false;
       useCustomTools := true;
       nativeTools := [];
       customTools := Some [toolA];
       cfg_priority := "custom";
       toolType := "custom_only" |}
  /\ createSearchAndUrlConfig (sampleManager "banana" true)
       requestNative [toolA] "gemini-2.0"
     = {| useNativeTools := true;
          useCustomTools := false;
          nativeTools := [google_search];
          customTools := None;
          cfg_priority := "native";
          toolType := "search_and_url" |}.
Proof.
  split.
  - apply (unrecognized_priority_defers_to_request string
             (sampleManager "banana" true) [toolA]
             (requestNativeWith "custom") "gemini-2.0"); discriminate.
  - apply (unrecognized_priority_defers_to_request string
             (sampleManager "banana" true) [toolA]
             requestNative "gemini-2.0"); discriminate.
Defined.

Lemma request_control_off_noninterference_witness :
  determineToolConfiguration (sampleManager "custom_first" false)
    (@nil string)
    {| rp_enableNativeTools := Some false;
       rp_enableSearch := None;
       rp_enableUrlContext := None;
       rp_nativeToolsPriority := Some "custom" |} "gemini-2.0"
  = determineToolConfiguration (sampleManager "custom_first" false)
      (@nil string) noOverrides "gemini-2.0".
Proof.
  apply (request_control_off_noninterference string); reflexivity.
Defined.

Lemma native_with_custom_tools_needs_request_witness :
  allowRequestControl (envSettings (sampleManager "native_first" true))
  = true
  /\ (rp_enableNativeTools requestSearch = Some true
      \/ rp_enableSearch requestSearch = Some true
      \/ rp_enableUrlContext requestSearch = Some true)
  /\ rp_enableNativeTools requestSearch <> Some false.
Proof.
  apply (native_with_custom_tools_needs_request string
           (sampleManager "native_first" true) [toolA] requestSearch
           "gemini-2.0"); [discriminate | reflexivity].
Defined.

Lemma legacy_model_no_url_context_fallback_witness :
  shouldEnableUrlContext (sampleManager "native_first" true) noOverrides
  = true
  /\ createNativeToolsArray (sampleManager "native_first" true)
       noOverrides "models/gemini-1.5-flash" = [].
Proof.
  split; [reflexivity|].
  apply legacy_model_no_url_context_fallback; reflexivity.
Defined.

Lemma request_enables_search_despite_environment_witness :
  enableGoogleSearch (envSettings (urlOnlyManager "native_first" false))
  = false
  /\ determineToolConfiguration (urlOnlyManager "native_first" false)
       (@nil string) requestSearch "gemini-2.0"
     = nativeConfig [google_search].
Proof.
  split; [reflexivity|].
  apply (request_enables_search_despite_environment string);
    reflexivity.
Defined.

Lemma no_available_tool_gives_custom_only_witness :
  determineToolConfiguration noToolManager (@nil string) requestSearch
    "gemini-2.0"
  = {| useNativeTools := false;
       useCustomTools := true;
       nativeTools := [];
       customTools := Some [];
       cfg_priority := "custom";
       toolType := "custom_only" |}.
Proof.
  apply (no_available_tool_gives_custom_only string); reflexivity.
Defined.

Lemma native_tools_need_exact_true_witness :
  determineToolConfiguration
    (constructor
       {| ENABLE_GEMINI_NATIVE_TOOLS := Some "TRUE";
          ENABLE_GOOGLE_SEARCH := Some "true";
          ENABLE_URL_CONTEXT := Some "true";
          GEMINI_TOOLS_PRIORITY := None;
          DEFAULT_TO_NATIVE_TOOLS := None;
          ALLOW_REQUEST_TOOL_CONTROL := None;
          ENABLE_INLINE_CITATIONS := None;
          INCLUDE_GROUNDING_METADATA := None;
          INCLUDE_SEARCH_ENTRY_POINT := None |})
    (@nil string) requestNative "gemini-2.0"
  = {| useNativeTools := false;
       useCustomTools := true;
       nativeTools := [];
       customTools := Some [];
       cfg_priority := "custom";
       toolType := "custom_only" |}.
Proof.
  apply (native_tools_need_exact_true string). discriminate.
Defined.
